(** * The [lualib_bundle_fixer] build plugin of cc-ts

    The repository is a collection of ambient type declarations plus one
    piece of executable code, [plugins/lualib_bundle_fixer.js]: a
    TypeScriptToLua plugin whose [beforeEmit] hook edits, in place, the
    array of files about to be written.  This development embeds that
    hook and settles the statements made about it.

    Conventions of the embedding.
    - A JavaScript string is a [string]; every character the plugin looks
      at is ASCII, so byte strings and UTF-16 strings agree on all tests
      made here.
    - [undefined] for an optional string is [None].
    - The array [result] is a [list EmitFile]; the transpiler builds one
      fresh object per output file, so entries are distinct objects and
      are held by value.
    - The hook returns nothing and mutates [result]; it is a computation
      in a state-and-exception monad whose state is the array.
    - Node's [path] module and the JSON configuration are imports of the
      plugin: they are parameters of the embedding. *)

From Stdlib Require Import String Ascii.
From stdpp Require Import base numbers list strings.

Local Open Scope string_scope.
Local Open Scope list_scope.
Local Open Scope Z_scope.

(** ** Data *)

(** An entry of the emit plan; the plugin reads and writes two fields. *)
Record EmitFile : Type := mkEmitFile {
  outputPath : string;
  code : string
}.

#[global] Instance EmitFile_eq_dec : EqDecision EmitFile.
Proof. solve_decision. Defined.

(** [cc-ts-config.json], as far as the plugin reads it. *)
Record Config : Type := mkConfig {
  generate_lualib_bundle : bool;
  custom_lualib_bundle_name : option string
}.

(** The compiler options, as far as the plugin reads them. *)
Record CompilerOptions : Type := mkOptions {
  outDir : option string
}.

(** Node's [path] module.  [resolve] reads the working directory of the
    process, so one value of this record is the module as one run sees
    it. *)
Record PathModule : Type := mkPath {
  resolve : string -> string;
  dirname : string -> string;
  basename : string -> string;
  join : string -> string -> string
}.

(** ** JavaScript primitives used by the plugin *)

Module JS.

(** Truthiness of a [string | undefined]: only a non-empty string is
    truthy. *)
Definition truthy (o : option string) : bool :=
  match o with
  | Some s => negb (String.eqb s EmptyString)
  | None => false
  end.

(** [Array.prototype.findIndex]: index of the first element satisfying
    the predicate, [-1] when there is none. *)
Fixpoint findIndex_from {A} (p : A -> bool) (l : list A) (i : Z) : Z :=
  match l with
  | [] => -1
  | x :: l' => if p x then i else findIndex_from p l' (i + 1)
  end.

Definition findIndex {A} (p : A -> bool) (l : list A) : Z :=
  findIndex_from p l 0.

(** [Array.prototype.splice(start, deleteCount)] without inserted
    items: a negative [start] counts from the end, both arguments are
    clamped to the array. *)
Definition splice {A} (start deleteCount : Z) (l : list A) : list A :=
  let len := Z.of_nat (length l) in
  let actualStart :=
    if start <? 0 then Z.max (len + start) 0 else Z.min start len in
  let actualDeleteCount :=
    Z.min (Z.max deleteCount 0) (len - actualStart) in
  take (Z.to_nat actualStart) l
    ++ drop (Z.to_nat (actualStart + actualDeleteCount)) l.

(** [strip_prefix p s] is the rest of [s] after a leading [p]. *)
Fixpoint strip_prefix (p s : string) : option string :=
  match p with
  | EmptyString => Some s
  | String a p' =>
      match s with
      | EmptyString => None
      | String b s' =>
          if Ascii.eqb a b then strip_prefix p' s' else None
      end
  end.

(** [GetSubstitution] for a pattern without capture groups: in the
    replacement text, [$$] stands for a dollar sign, [$&] for the
    matched text, [$`] for the text before the match and [$'] for the
    text after it; a dollar sign followed by anything else stands for
    itself. *)
Fixpoint getSubstitution (matched before after template : string)
  : string :=
  match template with
  | EmptyString => EmptyString
  | String "$" (String c t as t') =>
      if Ascii.eqb c "$" then
        String "$" (getSubstitution matched before after t)
      else if Ascii.eqb c "&" then
        matched +:+ getSubstitution matched before after t
      else if Ascii.eqb c "`" then
        before +:+ getSubstitution matched before after t
      else if Ascii.eqb c "'" then
        after +:+ getSubstitution matched before after t
      else
        String "$" (getSubstitution matched before after t')
  | String c t => String c (getSubstitution matched before after t)
  end.

(** [s.replace(/^lit/, template)] for a literal [lit]: the pattern is
    anchored and not global, so it matches at most once, at index 0. *)
Definition replace_anchored (lit template s : string) : string :=
  match strip_prefix lit s with
  | Some rest =>
      getSubstitution lit EmptyString rest template +:+ rest
  | None => s
  end.

End JS.

(** ** The state-and-exception monad of the hook *)

Inductive Exception : Type :=
| AssertionError.

Inductive Completion (A : Type) : Type :=
| Normal (a : A)
| Throw (e : Exception).
Arguments Normal {A} a.
Arguments Throw {A} e.

(** A computation over the array [result]: it ends normally or by a
    throw, and in both cases leaves an array behind. *)
Definition M (A : Type) : Type :=
  list EmitFile -> Completion A * list EmitFile.

#[global] Instance M_ret : MRet M := fun A a st => (Normal a, st).

#[global] Instance M_bind : MBind M := fun A B k m st =>
  match m st with
  | (Normal a, st') => k a st'
  | (Throw e, st') => (Throw e, st')
  end.

Definition get_result : M (list EmitFile) := fun st => (Normal st, st).

Definition modify_result (f : list EmitFile -> list EmitFile) : M unit :=
  fun st => (Normal tt, f st).

(** [assert(x)] on an optional string; past it, the value is a string. *)
Definition assert_truthy (o : option string) : M string :=
  fun st =>
    match o with
    | Some s =>
        if JS.truthy o then (Normal s, st) else (Throw AssertionError, st)
    | None => (Throw AssertionError, st)
    end.

Definition when (b : bool) (m : M unit) : M unit :=
  if b then m else mret tt.

(** [for (const file of result) body]: the array iterator visits index
    [i] while [i] is below the current length.  The body gets the index
    so that it can assign to the fields of the object it was handed. *)
Fixpoint for_of_from (fuel i : nat) (body : nat -> EmitFile -> M unit)
  : M unit :=
  match fuel with
  | O => mret tt
  | S fuel' =>
      st ← get_result;
      match st !! i with
      | Some file => body i file;; for_of_from fuel' (S i) body
      | None => mret tt
      end
  end.

Definition for_of (body : nat -> EmitFile -> M unit) : M unit :=
  st ← get_result; for_of_from (length st) 0%nat body.

(** [file.outputPath = p] and [file.code = c] for the object at index
    [i] of the array. *)
Definition set_outputPath (i : nat) (p : string) : M unit :=
  modify_result (alter (fun f => mkEmitFile p (code f)) i).

Definition set_code (i : nat) (c : string) : M unit :=
  modify_result (alter (fun f => mkEmitFile (outputPath f) c) i).

(** ** The plugin *)

Definition dquote : string := String "034" EmptyString.
Definition newline : string := String "010" EmptyString.

(** The text matched by the pattern of the plugin,
    [local ____lualib = require("lualib_bundle")] and a line feed. *)
Definition require_line (name : string) : string :=
  "local ____lualib = require(" +:+ dquote +:+ name +:+ dquote +:+ ")"
    +:+ newline.

Definition lualib_bundle : string := "lualib_bundle".
Definition lualib_bundle_lua : string := "lualib_bundle.lua".

Section Plugin.

Context (path : PathModule) (config : Config).

(** The test made on an entry by both halves of the hook. *)
Definition is_lualib_bundle (out_dir : string) (value : EmitFile) : bool :=
  let file_path := resolve path (outputPath value) in
  String.eqb (dirname path file_path) out_dir
    && String.eqb (basename path file_path) lualib_bundle_lua.

(** Lines 13 to 21: find the bundle and splice one entry out. *)
Definition removal_step (out_dir : string) : M unit :=
  result ← get_result;
  let idx := JS.findIndex (is_lualib_bundle out_dir) result in
  modify_result (JS.splice idx 1).

(** Lines 11 to 22. *)
Definition removal_block (options : CompilerOptions) : M unit :=
  when (negb (generate_lualib_bundle config))
    (d ← assert_truthy (outDir options);
     let out_dir := resolve path d in
     removal_step out_dir).

(** Lines 26 to 42: the loop over the entries. *)
Definition rename_step (out_dir name : string) : M unit :=
  for_of (fun i file =>
    if is_lualib_bundle out_dir file then
      set_outputPath i (join path out_dir (name +:+ ".lua"))
    else
      set_code i
        (JS.replace_anchored (require_line lualib_bundle)
           (require_line name) (code file))).

(** Lines 23 to 43. *)
Definition rename_block (options : CompilerOptions) : M unit :=
  when (JS.truthy (custom_lualib_bundle_name config))
    (d ← assert_truthy (outDir options);
     let out_dir := resolve path d in
     rename_step out_dir
       (default EmptyString (custom_lualib_bundle_name config))).

(** [beforeEmit(program, options, emitHost, result)]; the hook uses
    neither [program] nor [emitHost]. *)
Definition beforeEmit (options : CompilerOptions) : M unit :=
  removal_block options;; rename_block options.

End Plugin.

(** ** A reference instance of [path]: Node's POSIX implementation

    Follows [path.posix] of Node.js, restricted to the one- and
    two-argument calls the plugin makes.  It is used to run the hook on
    concrete inputs; the general theorems hold for every [PathModule]. *)

Module Posix.

Definition slash : ascii := "/"%char.

Definition is_slash (c : ascii) : bool := Ascii.eqb c slash.

Definition starts_with_slash (s : string) : bool :=
  match s with
  | String c _ => is_slash c
  | EmptyString => false
  end.

Fixpoint ends_with_slash (s : string) : bool :=
  match s with
  | EmptyString => false
  | String c EmptyString => is_slash c
  | String _ s' => ends_with_slash s'
  end.

(** The segments of a path, cut at every separator. *)
Fixpoint split_go (cur : string) (s : string) : list string :=
  match s with
  | EmptyString => [String.rev cur]
  | String c s' =>
      if is_slash c then String.rev cur :: split_go EmptyString s'
      else split_go (String c cur) s'
  end.

Definition split (s : string) : list string := split_go EmptyString s.

(** [normalizeString]: empty segments and [.] are dropped, [..] takes
    the previous segment away; above the top it is kept only when
    [allowAboveRoot] is set.  [acc] holds the segments kept so far,
    last one first. *)
Fixpoint normalize_segments (allowAboveRoot : bool)
    (acc segs : list string) : list string :=
  match segs with
  | [] => reverse acc
  | seg :: segs' =>
      if String.eqb seg EmptyString || String.eqb seg "." then
        normalize_segments allowAboveRoot acc segs'
      else if String.eqb seg ".." then
        match acc with
        | last :: acc' =>
            if String.eqb last ".." then
              normalize_segments allowAboveRoot
                (if allowAboveRoot then seg :: acc else acc) segs'
            else normalize_segments allowAboveRoot acc' segs'
        | [] =>
            normalize_segments allowAboveRoot
              (if allowAboveRoot then [seg] else []) segs'
        end
      else normalize_segments allowAboveRoot (seg :: acc) segs'
  end.

Fixpoint unsplit (segs : list string) : string :=
  match segs with
  | [] => EmptyString
  | [seg] => seg
  | seg :: segs' => seg +:+ "/" +:+ unsplit segs'
  end.

Definition normalizeString (p : string) (allowAboveRoot : bool) : string :=
  unsplit (normalize_segments allowAboveRoot [] (split p)).

(** [path.resolve(p)] in a process whose working directory is [cwd]. *)
Definition resolve (cwd p : string) : string :=
  let tail := if String.eqb p EmptyString then EmptyString else p +:+ "/" in
  let '(resolvedPath, resolvedAbsolute) :=
    if starts_with_slash p then (tail, true)
    else if String.eqb cwd EmptyString then (tail, false)
    else (cwd +:+ "/" +:+ tail, starts_with_slash cwd) in
  let normalized := normalizeString resolvedPath (negb resolvedAbsolute) in
  if resolvedAbsolute then "/" +:+ normalized
  else if String.eqb normalized EmptyString then "." else normalized.

Fixpoint drop_slashes (l : list ascii) : list ascii :=
  match l with
  | c :: l' => if is_slash c then drop_slashes l' else l
  | [] => []
  end.

Fixpoint drop_segment (l : list ascii) : list ascii :=
  match l with
  | c :: l' => if is_slash c then l else drop_segment l'
  | [] => []
  end.

Fixpoint take_segment (l : list ascii) : list ascii :=
  match l with
  | c :: l' => if is_slash c then [] else c :: take_segment l'
  | [] => []
  end.

(** [path.dirname]: the scan runs from the end down to index 1; it
    passes the trailing separators and the last segment and cuts at
    the separator before it. *)
Definition dirname (p : string) : string :=
  match p with
  | EmptyString => "."
  | String c0 rest =>
      let hasRoot := is_slash c0 in
      match drop_segment (drop_slashes (reverse (list_ascii_of_string rest))) with
      | [] => if hasRoot then "/" else "."
      | _ :: before =>
          if hasRoot && bool_decide (before = []) then "//"
          else String c0 (string_of_list_ascii (reverse before))
      end
  end.

(** [path.basename] without a suffix: the last segment, trailing
    separators put aside. *)
Definition basename (p : string) : string :=
  string_of_list_ascii
    (reverse (take_segment (drop_slashes (reverse (list_ascii_of_string p))))).

(** [path.normalize]. *)
Definition normalize (p : string) : string :=
  if String.eqb p EmptyString then "."
  else
    let isAbsolute := starts_with_slash p in
    let trailingSeparator := ends_with_slash p in
    let n := normalizeString p (negb isAbsolute) in
    if String.eqb n EmptyString then
      if isAbsolute then "/" else if trailingSeparator then "./" else "."
    else
      let n' := if trailingSeparator then n +:+ "/" else n in
      if isAbsolute then "/" +:+ n' else n'.

(** [path.join(a, b)]. *)
Definition join (a b : string) : string :=
  if String.eqb a EmptyString then
    if String.eqb b EmptyString then "." else normalize b
  else if String.eqb b EmptyString then normalize a
  else normalize (a +:+ "/" +:+ b).

(** The module as seen by a process running in [cwd]. *)
Definition path (cwd : string) : PathModule :=
  mkPath (resolve cwd) dirname basename join.

End Posix.

(** ** What the hook computes, as functions on lists *)

Section Functional.

Context (path : PathModule) (config : Config).

Definition removed (out_dir : string) (result : list EmitFile)
  : list EmitFile :=
  JS.splice (JS.findIndex (is_lualib_bundle path out_dir) result) 1 result.

(** One turn of the loop, as a function of the entry. *)
Definition rewrite_entry (out_dir name : string) (file : EmitFile)
  : EmitFile :=
  if is_lualib_bundle path out_dir file then
    mkEmitFile (join path out_dir (name +:+ ".lua")) (code file)
  else
    mkEmitFile (outputPath file)
      (JS.replace_anchored (require_line lualib_bundle)
         (require_line name) (code file)).

Definition out_dir_of (options : CompilerOptions) : string :=
  resolve path (default EmptyString (outDir options)).

Definition name_of : string :=
  default EmptyString (custom_lualib_bundle_name config).

(** The hook asserts in exactly these situations. *)
Definition asserts_fail (options : CompilerOptions) : bool :=
  negb (JS.truthy (outDir options))
    && (negb (generate_lualib_bundle config)
        || JS.truthy (custom_lualib_bundle_name config)).

Definition after_removal (options : CompilerOptions)
    (result : list EmitFile) : list EmitFile :=
  if generate_lualib_bundle config then result
  else removed (out_dir_of options) result.

Definition after_rename (options : CompilerOptions)
    (result : list EmitFile) : list EmitFile :=
  if JS.truthy (custom_lualib_bundle_name config) then
    rewrite_entry (out_dir_of options) name_of <$> result
  else result.

(** The entries of [result] that pass the test of the plugin. *)
Definition bundle_entries (out_dir : string) (result : list EmitFile)
  : list EmitFile :=
  List.filter (is_lualib_bundle path out_dir) result.

End Functional.

(** ** Strings looked for in the code of a file *)

(** A replacement text without a dollar sign holds no substitution
    pattern. *)
Fixpoint no_dollar (s : string) : bool :=
  match s with
  | EmptyString => true
  | String c s' => negb (Ascii.eqb c "$") && no_dollar s'
  end.

(** [occurs needle hay]: [needle] occurs somewhere in [hay]. *)
Fixpoint occurs (needle hay : string) : bool :=
  match JS.strip_prefix needle hay with
  | Some _ => true
  | None =>
      match hay with
      | EmptyString => false
      | String _ hay' => occurs needle hay'
      end
  end.

(** [lacks c s]: the character [c] does not occur in [s]. *)
Fixpoint lacks (c : ascii) (s : string) : bool :=
  match s with
  | EmptyString => true
  | String a s' => negb (Ascii.eqb a c) && lacks c s'
  end.

(** The call expression [require(...)] on a module name, as it is written
    in the emitted Lua. *)
Definition require_call (name : string) : string :=
  "require(" +:+ dquote +:+ name +:+ dquote +:+ ")".

(** Two runs resolve the outputPath of an entry to the same path. *)
Definition resolve_agree (resolve1 resolve2 : string -> string)
    (f : EmitFile) : Prop :=
  resolve1 (outputPath f) = resolve2 (outputPath f).

(** ** Concrete builds, for running the hook *)

Module Build.

(** A process started in [/proj], writing to [/proj/dist]. *)
Definition path : PathModule := Posix.path "/proj".
Definition options : CompilerOptions := mkOptions (Some "/proj/dist").
Definition out_dir : string := "/proj/dist".

Definition bundle_file : EmitFile :=
  mkEmitFile "/proj/dist/lualib_bundle.lua" "return {}".

(** The output of a source file of the user that is itself called
    [lualib_bundle.ts]. *)
Definition user_bundle_file : EmitFile :=
  mkEmitFile "/proj/dist/lualib_bundle.lua" "return 1".

Definition main_file : EmitFile :=
  mkEmitFile "/proj/dist/main.lua"
    (require_line lualib_bundle +:+ "print(1)").

Definition util_file : EmitFile :=
  mkEmitFile "/proj/dist/lib/util.lua" "return 2".

Definition drop_bundle : Config := mkConfig false None.
Definition keep_bundle : Config := mkConfig true None.
Definition rename_to (name : string) : Config := mkConfig true (Some name).
Definition drop_and_rename_to (name : string) : Config :=
  mkConfig false (Some name).

(** A file whose first line is the one the plugin looks for and which
    requires the bundle once more further down. *)
Definition two_requires_file : EmitFile :=
  mkEmitFile "/proj/dist/main.lua"
    (require_line lualib_bundle
       +:+ "local again = " +:+ require_call lualib_bundle +:+ newline).

End Build.

(** ** The primitives on small inputs *)

Example splice_middle : JS.splice 1 1 [10; 20; 30] = [10; 30].
Proof. reflexivity. Qed.

Example splice_from_the_end : JS.splice (-1) 1 [10; 20; 30] = [10; 20].
Proof. reflexivity. Qed.

Example splice_empty : JS.splice (-1) 1 (@nil Z) = [].
Proof. reflexivity. Qed.

Example findIndex_found : JS.findIndex (Z.eqb 20) [10; 20; 30; 20] = 1.
Proof. reflexivity. Qed.

Example findIndex_missing : JS.findIndex (Z.eqb 40) [10; 20; 30] = -1.
Proof. reflexivity. Qed.

Example substitution_patterns :
  JS.getSubstitution "MATCH" "BEFORE" "AFTER" "a$$b$&c$'d$`e$1f$<g$"
  = "a$bMATCHcAFTERdBEFOREe$1f$<g$".
Proof. reflexivity. Qed.

Example resolve_relative : Posix.resolve "/proj" "dist" = "/proj/dist".
Proof. reflexivity. Qed.

Example resolve_normalizes :
  Posix.resolve "/proj" "/a//b/../c/./" = "/a/c"
  /\ Posix.resolve "/proj" "../x" = "/x"
  /\ Posix.resolve "/proj" EmptyString = "/proj".
Proof. repeat split; reflexivity. Qed.

Example dirname_cases :
  Posix.dirname "/proj/dist/main.lua" = "/proj/dist"
  /\ Posix.dirname "/main.lua" = "/"
  /\ Posix.dirname "main.lua" = "."
  /\ Posix.dirname "/proj/dist/" = "/proj".
Proof. repeat split; reflexivity. Qed.

Example basename_cases :
  Posix.basename "/proj/dist/main.lua" = "main.lua"
  /\ Posix.basename "/proj/dist/" = "dist"
  /\ Posix.basename "/" = EmptyString.
Proof. repeat split; reflexivity. Qed.

Example join_cases :
  Posix.join "/proj/dist" "tstl.lua" = "/proj/dist/tstl.lua"
  /\ Posix.join "/proj/dist" ".lua" = "/proj/dist/.lua"
  /\ Posix.join "a/" "../../b/" = "../b/".
Proof. repeat split; reflexivity. Qed.

(** ** Arrays: [findIndex] and [splice] *)

Section ArrayFacts.

Context {A : Type} (p : A -> bool).

Lemma findIndex_from_none (l : list A) (i : Z) :
  Forall (fun x => p x = false) l -> JS.findIndex_from p l i = -1.
Proof.
  intros H; revert i.
  induction H as [|x l Hx _ IH]; intros i; simpl; [done|].
  rewrite Hx. apply IH.
Qed.

Lemma findIndex_from_first (l1 l2 : list A) (e : A) (i : Z) :
  Forall (fun x => p x = false) l1 -> p e = true ->
  JS.findIndex_from p (l1 ++ e :: l2) i = i + Z.of_nat (length l1).
Proof.
  intros H He; revert i.
  induction H as [|x l Hx _ IH]; intros i; simpl.
  - rewrite He. lia.
  - rewrite Hx, IH. lia.
Qed.

(** Either no element passes the test, or the list splits at the first
    one that does. *)
Lemma first_match_split (l : list A) :
  Forall (fun x => p x = false) l
  \/ exists l1 e l2,
      l = l1 ++ e :: l2 /\ Forall (fun x => p x = false) l1 /\ p e = true.
Proof.
  induction l as [|x l IH]; [by left|].
  destruct (p x) eqn:Hx.
  - right. exists [], x, l. by repeat split.
  - destruct IH as [IH|(l1 & e & l2 & -> & H1 & He)].
    + left. by constructor.
    + right. exists (x :: l1), e, l2. repeat split; [|done]. by constructor.
Qed.

Lemma splice_one_at (l1 l2 : list A) (e : A) :
  JS.splice (Z.of_nat (length l1)) 1 (l1 ++ e :: l2) = l1 ++ l2.
Proof.
  unfold JS.splice.
  rewrite length_app; simpl length.
  replace (Z.of_nat (length l1) <? 0) with false by (symmetry; apply Z.ltb_ge; lia).
  rewrite Z.min_l by lia.
  replace (Z.max 1 0) with 1 by lia.
  rewrite Z.min_l by lia.
  rewrite Nat2Z.id.
  replace (Z.to_nat (Z.of_nat (length l1) + 1)) with (length l1 + 1)%nat by lia.
  rewrite take_app_length.
  rewrite drop_app_add'; [|done].
  done.
Qed.

(** [splice(-1, 1)] takes the last element away, whatever it is. *)
Lemma splice_minus_one (l : list A) :
  JS.splice (-1) 1 l = removelast l.
Proof.
  unfold JS.splice.
  replace (-1 <? 0) with true by done.
  destruct l as [|x l] using rev_ind; [done|].
  rewrite removelast_last, length_app; simpl length.
  rewrite Z.max_l by lia.
  replace (Z.max 1 0) with 1 by lia.
  rewrite Z.min_l by lia.
  replace (Z.to_nat (Z.of_nat (length l + 1) + -1)) with (length l) by lia.
  replace (Z.to_nat (Z.of_nat (length l + 1) + -1 + 1)) with (length l + 1)%nat by lia.
  rewrite take_app_length.
  rewrite drop_ge; [by rewrite app_nil_r|].
  rewrite length_app; simpl; lia.
Qed.

End ArrayFacts.

(** ** The hook computes the functional model *)

Ltac run_monad :=
  unfold mbind, M_bind, mret, M_ret, get_result, modify_result, when; simpl.

Section Refinement.

Context (path : PathModule) (config : Config).

Lemma assert_truthy_run (o : option string) (st : list EmitFile) :
  assert_truthy o st =
    if JS.truthy o then (Normal (default EmptyString o), st)
    else (Throw AssertionError, st).
Proof. destruct o as [s|]; simpl; [|done]. by destruct (String.eqb s _). Qed.

Lemma removal_step_run (out_dir : string) (st : list EmitFile) :
  removal_step path out_dir st = (Normal tt, removed path out_dir st).
Proof. done. Qed.

(** The loop, started at the end of [done] with enough fuel for the
    entries still to visit, rewrites exactly those. *)
Lemma rename_loop_run (out_dir name : string) (todo : list EmitFile) :
  forall (done : list EmitFile) (fuel : nat),
    (length todo <= fuel)%nat ->
    for_of_from fuel (length done)
      (fun i file =>
         if is_lualib_bundle path out_dir file then
           set_outputPath i (join path out_dir (name +:+ ".lua"))
         else
           set_code i
             (JS.replace_anchored (require_line lualib_bundle)
                (require_line name) (code file)))
      (done ++ todo)
    = (Normal tt, done ++ (rewrite_entry path out_dir name <$> todo)).
Proof.
  induction todo as [|file todo IH]; intros done fuel Hfuel.
  - destruct fuel as [|fuel]; [done|].
    simpl. run_monad.
    rewrite app_nil_r, lookup_ge_None_2; done.
  - destruct fuel as [|fuel]; [simpl in Hfuel; lia|].
    simpl in Hfuel. simpl for_of_from. run_monad.
    rewrite list_lookup_middle by done.
    assert (Hstep : forall g : EmitFile -> EmitFile,
               alter g (length done) (done ++ file :: todo)
               = (done ++ [g file]) ++ todo).
    { intros g. rewrite alter_app_r_alt by done.
      rewrite Nat.sub_diag. simpl. by rewrite <- app_assoc. }
    specialize (IH (done ++ [rewrite_entry path out_dir name file]) fuel).
    rewrite length_app, Nat.add_1_r in IH. simpl in IH.
    rewrite <- (app_assoc done [_] (_ <$> todo)) in IH. simpl in IH.
    fold (@fmap list _ _ _ (rewrite_entry path out_dir name) todo).
    rewrite <- IH by lia. clear IH.
    unfold rewrite_entry.
    destruct (is_lualib_bundle path out_dir file);
      unfold set_outputPath, set_code; run_monad; by rewrite Hstep.
Qed.

Lemma rename_step_run (out_dir name : string) (st : list EmitFile) :
  rename_step path out_dir name st
  = (Normal tt, rewrite_entry path out_dir name <$> st).
Proof.
  unfold rename_step, for_of. run_monad.
  apply (rename_loop_run out_dir name st [] (length st)). done.
Qed.

Lemma removal_block_run (options : CompilerOptions) (st : list EmitFile) :
  removal_block path config options st =
    if negb (generate_lualib_bundle config) && negb (JS.truthy (outDir options))
    then (Throw AssertionError, st)
    else (Normal tt, after_removal path config options st).
Proof.
  unfold removal_block, after_removal.
  destruct (generate_lualib_bundle config); simpl; [done|].
  run_monad. rewrite assert_truthy_run.
  destruct (JS.truthy (outDir options)); done.
Qed.

Lemma rename_block_run (options : CompilerOptions) (st : list EmitFile) :
  rename_block path config options st =
    if JS.truthy (custom_lualib_bundle_name config)
       && negb (JS.truthy (outDir options))
    then (Throw AssertionError, st)
    else (Normal tt, after_rename path config options st).
Proof.
  unfold rename_block, after_rename.
  destruct (JS.truthy (custom_lualib_bundle_name config)); simpl; [|done].
  run_monad. rewrite assert_truthy_run.
  destruct (JS.truthy (outDir options)); simpl; [|done].
  apply rename_step_run.
Qed.

(** The whole hook: it throws, leaving the array as it was, exactly
    when an assertion fails; otherwise it removes, then renames. *)
Lemma beforeEmit_run (options : CompilerOptions) (st : list EmitFile) :
  beforeEmit path config options st =
    if asserts_fail config options then (Throw AssertionError, st)
    else (Normal tt,
          after_rename path config options
            (after_removal path config options st)).
Proof.
  unfold beforeEmit, asserts_fail.
  unfold mbind, M_bind.
  rewrite removal_block_run.
  destruct (generate_lualib_bundle config) eqn:Hg,
           (JS.truthy (outDir options)) eqn:Ho; simpl;
    rewrite ?rename_block_run, ?Ho; simpl;
    unfold after_removal; rewrite ?Hg;
    destruct (JS.truthy (custom_lualib_bundle_name config)); done.
Qed.

End Refinement.

(** ** Strings: prefixes and substitution patterns *)

Section StringFacts.

Lemma append_cons (a : ascii) (s r : string) :
  String a s +:+ r = String a (s +:+ r).
Proof. reflexivity. Qed.

Lemma append_nil_r (s : string) : s +:+ EmptyString = s.
Proof. induction s as [|a s IH]; [done|]. by rewrite append_cons, IH. Qed.

Lemma append_assoc (s1 s2 s3 : string) :
  (s1 +:+ s2) +:+ s3 = s1 +:+ (s2 +:+ s3).
Proof. induction s1 as [|a s1 IH]; [done|]. by rewrite !append_cons, IH. Qed.

Lemma list_ascii_of_append (s1 s2 : string) :
  list_ascii_of_string (s1 +:+ s2)
  = list_ascii_of_string s1 ++ list_ascii_of_string s2.
Proof.
  induction s1 as [|a s1 IH]; [done|].
  rewrite append_cons. simpl. by rewrite IH.
Qed.

Lemma list_ascii_of_string_inj (s1 s2 : string) :
  list_ascii_of_string s1 = list_ascii_of_string s2 -> s1 = s2.
Proof.
  intros H. rewrite <- (string_of_list_ascii_of_string s1),
    <- (string_of_list_ascii_of_string s2). by rewrite H.
Qed.

Lemma append_inv_tail (s1 s2 r : string) :
  s1 +:+ r = s2 +:+ r -> s1 = s2.
Proof.
  intros H. apply list_ascii_of_string_inj.
  apply (f_equal list_ascii_of_string) in H.
  rewrite !list_ascii_of_append in H.
  by apply app_inv_tail in H.
Qed.

Lemma strip_prefix_append (p r : string) :
  JS.strip_prefix p (p +:+ r) = Some r.
Proof.
  induction p as [|a p IH]; [done|].
  rewrite append_cons. simpl. by rewrite Ascii.eqb_refl.
Qed.

Lemma strip_prefix_Some (p s r : string) :
  JS.strip_prefix p s = Some r <-> s = p +:+ r.
Proof.
  split; [|intros ->; apply strip_prefix_append].
  revert s. induction p as [|a p IH]; intros s H; simpl in H.
  - by inversion H.
  - destruct s as [|b s]; [done|].
    destruct (Ascii.eqb a b) eqn:Hab; [|done].
    apply Ascii.eqb_eq in Hab as ->. rewrite append_cons. f_equal. by apply IH.
Qed.

Lemma strip_prefix_None (p s : string) :
  JS.strip_prefix p s = None <-> forall r, s <> p +:+ r.
Proof.
  split.
  - intros H r Hr. apply strip_prefix_Some in Hr. congruence.
  - intros H. destruct (JS.strip_prefix p s) as [r|] eqn:Hp; [|done].
    apply strip_prefix_Some in Hp. by destruct (H r).
Qed.

Lemma no_dollar_append (s1 s2 : string) :
  no_dollar (s1 +:+ s2) = no_dollar s1 && no_dollar s2.
Proof.
  induction s1 as [|a s1 IH]; [done|].
  rewrite append_cons. simpl. rewrite IH. by rewrite andb_assoc.
Qed.

Lemma getSubstitution_no_dollar (matched before after template : string) :
  no_dollar template = true ->
  JS.getSubstitution matched before after template = template.
Proof.
  induction template as [|c t IH]; [done|].
  cbn [no_dollar]. intros [Hc Ht]%andb_true_iff.
  apply negb_true_iff in Hc.
  assert (Hne : c <> "$"%char) by (intros ->; by rewrite Ascii.eqb_refl in Hc).
  assert (Hstep : JS.getSubstitution matched before after (String c t)
                  = String c (JS.getSubstitution matched before after t)).
  { destruct c as [[] [] [] [] [] [] [] []]; try reflexivity.
    by destruct Hne. }
  rewrite Hstep, IH; done.
Qed.

Lemma no_dollar_require_line (name : string) :
  no_dollar (require_line name) = no_dollar name.
Proof.
  unfold require_line. rewrite !no_dollar_append.
  cbn. by rewrite !andb_true_r.
Qed.

Lemma require_line_inj (n1 n2 : string) :
  require_line n1 = require_line n2 -> n1 = n2.
Proof.
  unfold require_line. intros H.
  apply (inj (String.append _)) in H.
  apply (inj (String.append _)) in H.
  by apply append_inv_tail in H.
Qed.

(** The replacement made by the plugin, seen on the code of a file. *)
Lemma replace_matching (name rest : string) :
  no_dollar name = true ->
  JS.replace_anchored (require_line lualib_bundle) (require_line name)
    (require_line lualib_bundle +:+ rest)
  = require_line name +:+ rest.
Proof.
  intros Hn. unfold JS.replace_anchored.
  rewrite strip_prefix_append, getSubstitution_no_dollar; [done|].
  by rewrite no_dollar_require_line.
Qed.

Lemma replace_not_matching (template s : string) :
  (forall rest, s <> require_line lualib_bundle +:+ rest) ->
  JS.replace_anchored (require_line lualib_bundle) template s = s.
Proof.
  intros H. unfold JS.replace_anchored.
  apply strip_prefix_None in H. by rewrite H.
Qed.

(** Whatever the replacement text, everything after the matched line
    is kept as it is. *)
Lemma replace_keeps_rest (template rest : string) :
  exists line,
    JS.replace_anchored (require_line lualib_bundle) template
      (require_line lualib_bundle +:+ rest)
    = line +:+ rest.
Proof.
  unfold JS.replace_anchored. rewrite strip_prefix_append. eauto.
Qed.

End StringFacts.

(** ** Entries of the emit plan *)

Section EntryFacts.

Context (path : PathModule).

Lemma is_lualib_bundle_outputPath (out_dir : string) (f g : EmitFile) :
  outputPath f = outputPath g ->
  is_lualib_bundle path out_dir f = is_lualib_bundle path out_dir g.
Proof. unfold is_lualib_bundle. by intros ->. Qed.

Lemma rewrite_entry_bundle (out_dir name : string) (f : EmitFile) :
  is_lualib_bundle path out_dir f = true ->
  rewrite_entry path out_dir name f
  = mkEmitFile (join path out_dir (name +:+ ".lua")) (code f).
Proof. unfold rewrite_entry. by intros ->. Qed.

Lemma rewrite_entry_other (out_dir name : string) (f : EmitFile) :
  is_lualib_bundle path out_dir f = false ->
  rewrite_entry path out_dir name f
  = mkEmitFile (outputPath f)
      (JS.replace_anchored (require_line lualib_bundle)
         (require_line name) (code f)).
Proof. unfold rewrite_entry. by intros ->. Qed.

Lemma rewrite_entry_other_stays (out_dir name : string) (f : EmitFile) :
  is_lualib_bundle path out_dir f = false ->
  is_lualib_bundle path out_dir (rewrite_entry path out_dir name f) = false.
Proof.
  intros H. rewrite rewrite_entry_other by done.
  by rewrite <- H.
Qed.

Lemma bundle_entries_nil (out_dir : string) (l : list EmitFile) :
  bundle_entries path out_dir l = []
  <-> Forall (fun f => is_lualib_bundle path out_dir f = false) l.
Proof.
  unfold bundle_entries. induction l as [|x l IH]; simpl.
  - split; [constructor|done].
  - destruct (is_lualib_bundle path out_dir x) eqn:Hx.
    + split; [done|]. inversion 1; congruence.
    + rewrite IH. split; [by constructor|by inversion 1].
Qed.

(** A list with exactly one bundle entry splits around it. *)
Lemma bundle_entries_one (out_dir : string) (l : list EmitFile) (e : EmitFile) :
  bundle_entries path out_dir l = [e] ->
  exists l1 l2,
    l = l1 ++ e :: l2
    /\ is_lualib_bundle path out_dir e = true
    /\ Forall (fun f => is_lualib_bundle path out_dir f = false) l1
    /\ Forall (fun f => is_lualib_bundle path out_dir f = false) l2.
Proof.
  unfold bundle_entries. induction l as [|x l IH]; simpl; [done|].
  destruct (is_lualib_bundle path out_dir x) eqn:Hx.
  - intros [= -> Hl]. exists [], l. repeat split; [done|constructor|].
    by apply bundle_entries_nil.
  - intros Hl. destruct (IH Hl) as (l1 & l2 & -> & He & H1 & H2).
    exists (x :: l1), l2. repeat split; [done| |done]. by constructor.
Qed.

(** The removal on a list that has a bundle entry: the first one goes. *)
Lemma removed_first (out_dir : string) (l1 l2 : list EmitFile) (e : EmitFile) :
  Forall (fun f => is_lualib_bundle path out_dir f = false) l1 ->
  is_lualib_bundle path out_dir e = true ->
  removed path out_dir (l1 ++ e :: l2) = l1 ++ l2.
Proof.
  intros H1 He. unfold removed, JS.findIndex.
  rewrite findIndex_from_first by done.
  rewrite Z.add_0_l. apply splice_one_at.
Qed.

(** The removal on a list that has none: the last entry goes. *)
Lemma removed_none (out_dir : string) (l : list EmitFile) :
  Forall (fun f => is_lualib_bundle path out_dir f = false) l ->
  removed path out_dir l = removelast l.
Proof.
  intros H. unfold removed, JS.findIndex.
  rewrite findIndex_from_none by done. apply splice_minus_one.
Qed.

Lemma Forall_removelast {A} (P : A -> Prop) (l : list A) :
  Forall P l -> Forall P (removelast l).
Proof.
  destruct l as [|x l] using rev_ind; [done|].
  rewrite removelast_last. by intros [? _]%Forall_app.
Qed.

(** With at most one bundle entry, none is left after the removal. *)
Lemma removed_at_most_one (out_dir : string) (l : list EmitFile) :
  (length (bundle_entries path out_dir l) <= 1)%nat ->
  Forall (fun f => is_lualib_bundle path out_dir f = false)
    (removed path out_dir l).
Proof.
  intros Hle.
  destruct (bundle_entries path out_dir l) as [|e [|e' t]] eqn:Hb;
    [| |simpl in Hle; lia].
  - apply bundle_entries_nil in Hb.
    rewrite removed_none by done. by apply Forall_removelast.
  - apply bundle_entries_one in Hb as (l1 & l2 & -> & He & H1 & H2).
    rewrite removed_first by done. by apply Forall_app.
Qed.

End EntryFacts.

(** ** The removal *)

Section Removal.

Context (path : PathModule) (config : Config).

Lemma after_rename_other (options : CompilerOptions) (l : list EmitFile) :
  Forall (fun f => is_lualib_bundle path (out_dir_of path options) f = false) l ->
  Forall (fun f => is_lualib_bundle path (out_dir_of path options) f = false)
    (after_rename path config options l).
Proof.
  intros H. unfold after_rename.
  destruct (JS.truthy _); [|done].
  apply Forall_fmap. eapply Forall_impl; [exact H|].
  intros f Hf. simpl. by apply rewrite_entry_other_stays.
Qed.

Lemma removal_block_passes (options : CompilerOptions) (l : list EmitFile) :
  JS.truthy (outDir options) = true ->
  removal_block path config options l
  = (Normal tt, after_removal path config options l).
Proof.
  intros Ho. rewrite removal_block_run, Ho. by rewrite andb_false_r.
Qed.

Lemma asserts_pass (options : CompilerOptions) :
  JS.truthy (outDir options) = true -> asserts_fail config options = false.
Proof. unfold asserts_fail. by intros ->. Qed.

End Removal.

(** C1, as stated, fails on a plan with two entries that pass the test
    of the plugin: the compiler's bundle and the output of a user file
    named [lualib_bundle.ts].  [findIndex] stops at the first and
    [splice] deletes one entry, so the second is still in the list
    after [beforeEmit]. *)
Lemma beforeEmit_leaves_second_bundle :
  let result := [Build.bundle_file; Build.user_bundle_file] in
  Build.user_bundle_file ∈ result
  /\ is_lualib_bundle Build.path (out_dir_of Build.path Build.options)
       Build.user_bundle_file = true
  /\ generate_lualib_bundle Build.drop_bundle = false
  /\ beforeEmit Build.path Build.drop_bundle Build.options result
     = (Normal tt, [Build.user_bundle_file])
  /\ Build.user_bundle_file ∈ [Build.user_bundle_file].
Proof.
  repeat split; try reflexivity.
  - apply list_elem_of_further, list_elem_of_here.
  - apply list_elem_of_here.
Qed.

(** C1, amended: when the result list contains exactly one entry whose
    resolved outputPath is directly in the resolved outDir with basename
    [lualib_bundle.lua], generate_lualib_bundle is false and outDir is
    given, [beforeEmit] returns and the list no longer contains that
    entry, nor any other entry passing the test. *)
Theorem beforeEmit_removes_the_bundle
    (path : PathModule) (config : Config) (options : CompilerOptions)
    (result : list EmitFile) (e : EmitFile) :
  generate_lualib_bundle config = false ->
  JS.truthy (outDir options) = true ->
  bundle_entries path (out_dir_of path options) result = [e] ->
  exists result',
    beforeEmit path config options result = (Normal tt, result')
    /\ (e ∉ result')
    /\ bundle_entries path (out_dir_of path options) result' = [].
Proof.
  intros Hg Ho He.
  rewrite beforeEmit_run, asserts_pass by done.
  eexists; split; [reflexivity|].
  apply bundle_entries_one in He as (l1 & l2 & -> & He & H1 & H2).
  assert (Hall : Forall
            (fun f => is_lualib_bundle path (out_dir_of path options) f = false)
            (after_rename path config options
               (after_removal path config options (l1 ++ e :: l2)))).
  { apply after_rename_other. unfold after_removal. rewrite Hg.
    rewrite removed_first by done. by apply Forall_app. }
  split; [|by apply bundle_entries_nil].
  intros Hin. rewrite Forall_forall in Hall.
  specialize (Hall e Hin). congruence.
Qed.

Lemma beforeEmit_removes_the_bundle_witness :
  exists result',
    beforeEmit Build.path Build.drop_bundle Build.options
      [Build.bundle_file; Build.main_file] = (Normal tt, result')
    /\ (Build.bundle_file ∉ result')
    /\ bundle_entries Build.path (out_dir_of Build.path Build.options) result' = [].
Proof.
  apply (beforeEmit_removes_the_bundle Build.path Build.drop_bundle
           Build.options [Build.bundle_file; Build.main_file] Build.bundle_file);
    reflexivity.
Defined.

(** The block runs the removal step once the assertion has passed. *)
Lemma removal_block_runs_step
    (path : PathModule) (config : Config) (options : CompilerOptions)
    (result : list EmitFile) :
  generate_lualib_bundle config = false ->
  JS.truthy (outDir options) = true ->
  removal_block path config options result
  = removal_step path (out_dir_of path options) result.
Proof.
  intros Hg Ho. rewrite removal_block_run, Hg, Ho. simpl.
  unfold after_removal. by rewrite Hg.
Qed.

(** C3: on a non-empty result list without any entry whose resolved
    outputPath is directly in the resolved outDir with basename
    [lualib_bundle.lua], the removal step, which runs when
    generate_lualib_bundle is false, still deletes an entry: [findIndex]
    answers [-1], [splice(-1, 1)] deletes the last element of the list,
    which is not the bundle, and nothing is thrown. *)
Theorem removal_deletes_last_when_bundle_missing
    (path : PathModule) (out_dir : string) (result : list EmitFile) :
  result <> [] ->
  bundle_entries path out_dir result = [] ->
  exists init last,
    result = init ++ [last]
    /\ is_lualib_bundle path out_dir last = false
    /\ JS.findIndex (is_lualib_bundle path out_dir) result = -1
    /\ removal_step path out_dir result = (Normal tt, init)
    /\ forall (config : Config) (options : CompilerOptions),
         generate_lualib_bundle config = false ->
         JS.truthy (outDir options) = true ->
         out_dir_of path options = out_dir ->
         removal_block path config options result = (Normal tt, init).
Proof.
  intros Hne Hb. apply bundle_entries_nil in Hb.
  destruct result as [|last init _] using rev_ind; [done|].
  exists init, last. split; [done|].
  split; [by apply Forall_app in Hb as [_ [? _]%Forall_cons]|].
  split; [by apply findIndex_from_none|].
  assert (Hstep : removal_step path out_dir (init ++ [last]) = (Normal tt, init)).
  { rewrite removal_step_run, removed_none by done.
    by rewrite removelast_last. }
  split; [done|].
  intros config options Hg Ho <-.
  by rewrite removal_block_runs_step.
Qed.

Lemma removal_deletes_last_when_bundle_missing_witness :
  exists init last,
    [Build.main_file; Build.util_file] = init ++ [last]
    /\ is_lualib_bundle Build.path Build.out_dir last = false
    /\ JS.findIndex (is_lualib_bundle Build.path Build.out_dir)
         [Build.main_file; Build.util_file] = -1
    /\ removal_step Build.path Build.out_dir
         [Build.main_file; Build.util_file] = (Normal tt, init)
    /\ forall (config : Config) (options : CompilerOptions),
         generate_lualib_bundle config = false ->
         JS.truthy (outDir options) = true ->
         out_dir_of Build.path options = Build.out_dir ->
         removal_block Build.path config options
           [Build.main_file; Build.util_file] = (Normal tt, init).
Proof.
  apply (removal_deletes_last_when_bundle_missing Build.path Build.out_dir
           [Build.main_file; Build.util_file]);
    [discriminate|reflexivity].
Defined.

(** C6: with generate_lualib_bundle true the removal changes nothing:
    the block ends normally, whatever outDir is, and leaves the result
    list as it was, so the bundle is kept, no entry is removed and no
    outputPath or code is modified. *)
Theorem removal_skipped_when_bundle_generated
    (path : PathModule) (config : Config) (options : CompilerOptions)
    (result : list EmitFile) :
  generate_lualib_bundle config = true ->
  removal_block path config options result = (Normal tt, result).
Proof.
  intros Hg. rewrite removal_block_run, Hg. simpl.
  unfold after_removal. by rewrite Hg.
Qed.

Lemma removal_skipped_when_bundle_generated_witness :
  removal_block Build.path Build.keep_bundle (mkOptions None)
    [Build.bundle_file; Build.main_file]
  = (Normal tt, [Build.bundle_file; Build.main_file]).
Proof.
  apply (removal_skipped_when_bundle_generated Build.path Build.keep_bundle
           (mkOptions None) [Build.bundle_file; Build.main_file]).
  reflexivity.
Defined.

(** ** The assertion *)

(** C5, as stated, fails when outDir is present but is the empty
    string: [assert] tests truthiness, the empty string is falsy, and
    the hook throws although the option is not absent. *)
Lemma beforeEmit_throws_on_empty_outDir :
  outDir (mkOptions (Some EmptyString)) <> None
  /\ beforeEmit Build.path Build.drop_bundle (mkOptions (Some EmptyString))
       [Build.bundle_file; Build.main_file]
     = (Throw AssertionError, [Build.bundle_file; Build.main_file]).
Proof. split; [discriminate|reflexivity]. Qed.

(** C5, amended: [beforeEmit] raises an error if and only if the outDir
    option is absent or the empty string while at least one of the two
    configuration paths is active (generate_lualib_bundle false, or
    custom_lualib_bundle_name set to a non-empty string).  That
    assertion is the only error check: on every other input, whatever
    the result list and the codes in it, the hook ends normally; when
    it throws, the result list is as it was. *)
Theorem beforeEmit_throws_iff
    (path : PathModule) (config : Config) (options : CompilerOptions)
    (result : list EmitFile) :
  ((beforeEmit path config options result).1 = Throw AssertionError
   <-> JS.truthy (outDir options) = false
       /\ (generate_lualib_bundle config = false
           \/ JS.truthy (custom_lualib_bundle_name config) = true))
  /\ ((beforeEmit path config options result).1 = Normal tt
      \/ beforeEmit path config options result = (Throw AssertionError, result)).
Proof.
  rewrite beforeEmit_run. unfold asserts_fail.
  destruct (JS.truthy (outDir options)),
           (generate_lualib_bundle config),
           (JS.truthy (custom_lualib_bundle_name config)); simpl;
    (split; [split; [try done; intros _; split; auto | intros [? [?|?]]; done]
            | auto]).
Qed.

Lemma beforeEmit_throws_iff_witness :
  ((beforeEmit Build.path Build.drop_bundle (mkOptions None)
      [Build.bundle_file; Build.main_file]).1 = Throw AssertionError
   <-> JS.truthy (outDir (mkOptions None)) = false
       /\ (generate_lualib_bundle Build.drop_bundle = false
           \/ JS.truthy (custom_lualib_bundle_name Build.drop_bundle) = true))
  /\ ((beforeEmit Build.path Build.drop_bundle (mkOptions None)
         [Build.bundle_file; Build.main_file]).1 = Normal tt
      \/ beforeEmit Build.path Build.drop_bundle (mkOptions None)
           [Build.bundle_file; Build.main_file]
         = (Throw AssertionError, [Build.bundle_file; Build.main_file])).
Proof.
  apply (beforeEmit_throws_iff Build.path Build.drop_bundle (mkOptions None)
           [Build.bundle_file; Build.main_file]).
Defined.

(** ** The renaming and the rewriting *)

(** C9: the rename/rewrite step keeps every field it does not target.
    An entry other than [lualib_bundle.lua] in outDir keeps its
    outputPath (only its code may change), the [lualib_bundle.lua]
    entry keeps its code (only its outputPath changes), and the list
    keeps its length and its order: no entry is added or removed. *)
Theorem rename_preserves_untargeted_fields
    (path : PathModule) (config : Config) (options : CompilerOptions)
    (result : list EmitFile) :
  let result' := (rename_block path config options result).2 in
  length result' = length result
  /\ forall (i : nat) (file : EmitFile),
       result !! i = Some file ->
       exists file',
         result' !! i = Some file'
         /\ (is_lualib_bundle path (out_dir_of path options) file = false ->
             outputPath file' = outputPath file)
         /\ (is_lualib_bundle path (out_dir_of path options) file = true ->
             code file' = code file).
Proof.
  simpl. rewrite rename_block_run.
  destruct (JS.truthy (custom_lualib_bundle_name config)
            && negb (JS.truthy (outDir options))) eqn:Hthrow; simpl.
  { split; [done|]. intros i file Hi. exists file. by repeat split. }
  unfold after_rename.
  destruct (JS.truthy (custom_lualib_bundle_name config)); simpl.
  - split; [apply length_fmap|].
    intros i file Hi.
    exists (rewrite_entry path (out_dir_of path options) (name_of config) file).
    split; [by rewrite list_lookup_fmap, Hi|].
    split; intros Hb.
    + by rewrite rewrite_entry_other.
    + by rewrite rewrite_entry_bundle.
  - split; [done|]. intros i file Hi. exists file. by repeat split.
Qed.

Lemma rename_preserves_untargeted_fields_witness :
  let result := [Build.bundle_file; Build.main_file] in
  let result' :=
    (rename_block Build.path (Build.rename_to "tstl") Build.options result).2 in
  length result' = length result
  /\ forall (i : nat) (file : EmitFile),
       result !! i = Some file ->
       exists file',
         result' !! i = Some file'
         /\ (is_lualib_bundle Build.path (out_dir_of Build.path Build.options)
               file = false ->
             outputPath file' = outputPath file)
         /\ (is_lualib_bundle Build.path (out_dir_of Build.path Build.options)
               file = true ->
             code file' = code file).
Proof.
  apply (rename_preserves_untargeted_fields Build.path (Build.rename_to "tstl")
           Build.options [Build.bundle_file; Build.main_file]).
Defined.

(** C4, as stated, fails when custom_lualib_bundle_name is set to the
    empty string: the test [if (config.custom_lualib_bundle_name)] is
    one of truthiness, the empty string is falsy, and the bundle keeps
    its outputPath instead of getting [path.join(out_dir, ".lua")]. *)
Lemma bundle_not_renamed_to_empty_name :
  let result := [Build.bundle_file; Build.main_file] in
  custom_lualib_bundle_name (Build.rename_to EmptyString) = Some EmptyString
  /\ generate_lualib_bundle (Build.rename_to EmptyString) = true
  /\ is_lualib_bundle Build.path (out_dir_of Build.path Build.options)
       Build.bundle_file = true
  /\ beforeEmit Build.path (Build.rename_to EmptyString) Build.options result
     = (Normal tt, result)
  /\ outputPath Build.bundle_file
     <> join Build.path (out_dir_of Build.path Build.options)
          (EmptyString +:+ ".lua").
Proof. repeat split; try reflexivity. discriminate. Qed.

(** C4, amended: with generate_lualib_bundle true, outDir given and
    custom_lualib_bundle_name set to a non-empty string N, the hook
    returns and every entry whose resolved outputPath is directly in the
    resolved outDir with basename [lualib_bundle.lua] has, at its place
    in the list, the outputPath [path.join(out_dir, N + ".lua")], where
    [out_dir] is the resolved outDir. *)
Theorem bundle_renamed_to_custom_name
    (path : PathModule) (config : Config) (options : CompilerOptions)
    (result : list EmitFile) (N : string) (i : nat) (file : EmitFile) :
  generate_lualib_bundle config = true ->
  custom_lualib_bundle_name config = Some N ->
  N <> EmptyString ->
  JS.truthy (outDir options) = true ->
  result !! i = Some file ->
  is_lualib_bundle path (out_dir_of path options) file = true ->
  exists result' file',
    beforeEmit path config options result = (Normal tt, result')
    /\ result' !! i = Some file'
    /\ outputPath file' = join path (out_dir_of path options) (N +:+ ".lua").
Proof.
  intros Hg Hn Hne Ho Hi Hb.
  assert (Ht : JS.truthy (custom_lualib_bundle_name config) = true).
  { rewrite Hn. simpl. apply negb_true_iff, String.eqb_neq. done. }
  rewrite beforeEmit_run, asserts_pass by done.
  unfold after_removal, after_rename, name_of. rewrite Hg, Ht, Hn. simpl.
  eexists _, _. split; [reflexivity|].
  split; [by rewrite list_lookup_fmap, Hi|].
  by rewrite rewrite_entry_bundle.
Qed.

Lemma bundle_renamed_to_custom_name_witness :
  exists result' file',
    beforeEmit Build.path (Build.rename_to "tstl") Build.options
      [Build.bundle_file; Build.main_file] = (Normal tt, result')
    /\ result' !! 0%nat = Some file'
    /\ outputPath file'
       = join Build.path (out_dir_of Build.path Build.options) ("tstl" +:+ ".lua").
Proof.
  apply (bundle_renamed_to_custom_name Build.path (Build.rename_to "tstl")
           Build.options [Build.bundle_file; Build.main_file] "tstl" 0
           Build.bundle_file);
    [reflexivity|reflexivity|discriminate|reflexivity|reflexivity|reflexivity].
Defined.

Section Rewriting.

Context (path : PathModule) (config : Config) (options : CompilerOptions).

Lemma truthy_Some (N : string) :
  N <> EmptyString -> JS.truthy (Some N) = true.
Proof. intros H. simpl. by apply negb_true_iff, String.eqb_neq. Qed.

(** With the name set and outDir given, the rename block maps
    [rewrite_entry] over the list. *)
Lemma rename_block_set (N : string) (result : list EmitFile) :
  custom_lualib_bundle_name config = Some N ->
  N <> EmptyString ->
  JS.truthy (outDir options) = true ->
  rename_block path config options result
  = (Normal tt, rewrite_entry path (out_dir_of path options) N <$> result).
Proof.
  intros Hn Hne Ho. rewrite rename_block_run, Hn, truthy_Some, Ho by done.
  simpl. unfold after_rename, name_of. by rewrite Hn, truthy_Some.
Qed.

Lemma beforeEmit_set (N : string) (result : list EmitFile) :
  custom_lualib_bundle_name config = Some N ->
  N <> EmptyString ->
  JS.truthy (outDir options) = true ->
  beforeEmit path config options result
  = (Normal tt,
     rewrite_entry path (out_dir_of path options) N
       <$> after_removal path config options result).
Proof.
  intros Hn Hne Ho. rewrite beforeEmit_run, asserts_pass by done.
  unfold after_rename, name_of. by rewrite Hn, truthy_Some.
Qed.

End Rewriting.

(** C2, as stated, fails: the pattern is anchored at the start of the
    code and is not global, so only a leading
    [local ____lualib = require("lualib_bundle")] line is rewritten.  A
    second [require("lualib_bundle")] further down is still there after
    [beforeEmit]. *)
Lemma later_require_not_rewritten :
  custom_lualib_bundle_name (Build.rename_to "foo") = Some "foo"
  /\ is_lualib_bundle Build.path (out_dir_of Build.path Build.options)
       Build.two_requires_file = false
  /\ beforeEmit Build.path (Build.rename_to "foo") Build.options
       [Build.two_requires_file]
     = (Normal tt,
        [mkEmitFile "/proj/dist/main.lua"
           (require_line "foo"
              +:+ "local again = " +:+ require_call lualib_bundle +:+ newline)])
  /\ occurs (require_call lualib_bundle)
       (require_line "foo"
          +:+ "local again = " +:+ require_call lualib_bundle +:+ newline)
     = true.
Proof. repeat split; reflexivity. Qed.

(** C2, amended: if custom_lualib_bundle_name is ['foo'] and outDir is
    given, then after [beforeEmit] every output file other than the
    [lualib_bundle.lua] file whose code begins with the line
    [local ____lualib = require("lualib_bundle")] has that leading line
    rewritten to [local ____lualib = require("foo")], the rest of its
    code being unchanged; a file whose code does not begin with that
    line keeps its code.  The files meant are those still in the list
    after the removal. *)
Theorem leading_require_rewritten_to_foo
    (path : PathModule) (config : Config) (options : CompilerOptions)
    (result : list EmitFile) :
  custom_lualib_bundle_name config = Some "foo" ->
  JS.truthy (outDir options) = true ->
  exists kept result',
    removal_block path config options result = (Normal tt, kept)
    /\ beforeEmit path config options result = (Normal tt, result')
    /\ length result' = length kept
    /\ forall (i : nat) (file : EmitFile),
         kept !! i = Some file ->
         is_lualib_bundle path (out_dir_of path options) file = false ->
         exists file',
           result' !! i = Some file'
           /\ outputPath file' = outputPath file
           /\ (forall rest,
                 code file = require_line lualib_bundle +:+ rest ->
                 code file' = require_line "foo" +:+ rest)
           /\ ((forall rest, code file <> require_line lualib_bundle +:+ rest) ->
               code file' = code file).
Proof.
  intros Hn Ho.
  exists (after_removal path config options result). eexists.
  split; [by apply removal_block_passes|].
  split; [by apply (beforeEmit_set path config options "foo")|].
  split; [apply length_fmap|].
  intros i file Hi Hb.
  eexists. split; [by rewrite list_lookup_fmap, Hi|].
  rewrite rewrite_entry_other by done. simpl.
  split; [done|]. split.
  - intros rest ->. by apply replace_matching.
  - apply replace_not_matching.
Qed.

Lemma leading_require_rewritten_to_foo_witness :
  exists kept result',
    removal_block Build.path (Build.rename_to "foo") Build.options
      [Build.bundle_file; Build.main_file] = (Normal tt, kept)
    /\ beforeEmit Build.path (Build.rename_to "foo") Build.options
         [Build.bundle_file; Build.main_file] = (Normal tt, result')
    /\ length result' = length kept
    /\ forall (i : nat) (file : EmitFile),
         kept !! i = Some file ->
         is_lualib_bundle Build.path (out_dir_of Build.path Build.options) file
         = false ->
         exists file',
           result' !! i = Some file'
           /\ outputPath file' = outputPath file
           /\ (forall rest,
                 code file = require_line lualib_bundle +:+ rest ->
                 code file' = require_line "foo" +:+ rest)
           /\ ((forall rest, code file <> require_line lualib_bundle +:+ rest) ->
               code file' = code file).
Proof.
  apply (leading_require_rewritten_to_foo Build.path (Build.rename_to "foo")
           Build.options [Build.bundle_file; Build.main_file]);
    reflexivity.
Defined.

(** C8, as stated, fails when custom_lualib_bundle_name is
    [lualib_bundle] itself: the code of the file begins with the line,
    the line is replaced by an equal one, and the code is not changed. *)
Lemma same_name_changes_nothing :
  custom_lualib_bundle_name (Build.rename_to lualib_bundle) = Some lualib_bundle
  /\ is_lualib_bundle Build.path (out_dir_of Build.path Build.options)
       Build.main_file = false
  /\ code Build.main_file = require_line lualib_bundle +:+ "print(1)"
  /\ beforeEmit Build.path (Build.rename_to lualib_bundle) Build.options
       [Build.main_file]
     = (Normal tt, [Build.main_file]).
Proof. repeat split; reflexivity. Qed.

(** C8, amended: when custom_lualib_bundle_name is set to a non-empty
    N and outDir is given, the code of a file other than the bundle is
    left as it is unless it begins with exactly the line
    [local ____lualib = require("lualib_bundle")] followed by a line
    feed; when it does, only that leading occurrence is replaced and
    everything after it, any later [require("lualib_bundle")] included,
    is unchanged.  For N without a dollar sign the line is replaced by
    the same line naming N, so the code is changed if and only if it
    begins with the line and N is not [lualib_bundle]. *)
Theorem only_leading_line_rewritten
    (path : PathModule) (config : Config) (options : CompilerOptions)
    (result : list EmitFile) (N : string) (i : nat) (file : EmitFile) :
  custom_lualib_bundle_name config = Some N ->
  N <> EmptyString ->
  JS.truthy (outDir options) = true ->
  result !! i = Some file ->
  is_lualib_bundle path (out_dir_of path options) file = false ->
  exists result' file',
    rename_block path config options result = (Normal tt, result')
    /\ result' !! i = Some file'
    /\ ((forall rest, code file <> require_line lualib_bundle +:+ rest) ->
        code file' = code file)
    /\ (forall rest,
          code file = require_line lualib_bundle +:+ rest ->
          exists line,
            code file' = line +:+ rest
            /\ (no_dollar N = true -> line = require_line N))
    /\ (no_dollar N = true ->
        (code file' <> code file
         <-> (exists rest, code file = require_line lualib_bundle +:+ rest)
             /\ N <> lualib_bundle)).
Proof.
  intros Hn Hne Ho Hi Hb.
  rewrite (rename_block_set path config options N) by done.
  eexists _, _. split; [reflexivity|].
  split; [by rewrite list_lookup_fmap, Hi|].
  rewrite rewrite_entry_other by done. simpl.
  split; [apply replace_not_matching|].
  split.
  - intros rest ->. unfold JS.replace_anchored.
    rewrite strip_prefix_append. eexists; split; [reflexivity|].
    intros Hd. apply getSubstitution_no_dollar.
    by rewrite no_dollar_require_line.
  - intros Hd. split.
    + intros Hchanged.
      destruct (JS.strip_prefix (require_line lualib_bundle) (code file))
        as [rest|] eqn:Hp.
      * apply strip_prefix_Some in Hp. split; [by exists rest|].
        intros ->. apply Hchanged. rewrite Hp. by apply replace_matching.
      * destruct Hchanged. apply replace_not_matching.
        by apply strip_prefix_None.
    + intros [[rest Hrest] HN]. rewrite Hrest, replace_matching by done.
      intros Heq. apply append_inv_tail, require_line_inj in Heq. done.
Qed.

Lemma only_leading_line_rewritten_witness :
  exists result' file',
    rename_block Build.path (Build.rename_to "tstl") Build.options
      [Build.bundle_file; Build.two_requires_file] = (Normal tt, result')
    /\ result' !! 1%nat = Some file'
    /\ ((forall rest, code Build.two_requires_file <> require_line lualib_bundle +:+ rest) ->
        code file' = code Build.two_requires_file)
    /\ (forall rest,
          code Build.two_requires_file = require_line lualib_bundle +:+ rest ->
          exists line,
            code file' = line +:+ rest
            /\ (no_dollar "tstl" = true -> line = require_line "tstl"))
    /\ (no_dollar "tstl" = true ->
        (code file' <> code Build.two_requires_file
         <-> (exists rest, code Build.two_requires_file = require_line lualib_bundle +:+ rest)
             /\ "tstl" <> lualib_bundle)).
Proof.
  apply (only_leading_line_rewritten Build.path (Build.rename_to "tstl")
           Build.options [Build.bundle_file; Build.two_requires_file] "tstl" 1
           Build.two_requires_file);
    [reflexivity|discriminate|reflexivity|reflexivity|reflexivity].
Defined.

(** What [String.prototype.replace] does with a name that holds a
    substitution pattern: for the name [a$$b] the bundle is written to
    [a$$b.lua] while the other files are made to require [a$b]. *)
Lemma dollar_pattern_in_name_is_expanded :
  beforeEmit Build.path (Build.rename_to "a$$b") Build.options
    [Build.bundle_file; Build.main_file]
  = (Normal tt,
     [mkEmitFile "/proj/dist/a$$b.lua" (code Build.bundle_file);
      mkEmitFile "/proj/dist/main.lua" (require_line "a$b" +:+ "print(1)")]).
Proof. reflexivity. Qed.

(** ** Removal and renaming together *)

(** C10, as stated, fails on a plan with two entries passing the test
    of the plugin: the removal deletes the first, the second is still
    there when the loop runs and is renamed. *)
Lemma second_bundle_renamed_after_removal :
  let result := [Build.bundle_file; Build.user_bundle_file; Build.main_file] in
  generate_lualib_bundle (Build.drop_and_rename_to "tstl") = false
  /\ custom_lualib_bundle_name (Build.drop_and_rename_to "tstl") = Some "tstl"
  /\ removal_block Build.path (Build.drop_and_rename_to "tstl") Build.options
       result
     = (Normal tt, [Build.user_bundle_file; Build.main_file])
  /\ beforeEmit Build.path (Build.drop_and_rename_to "tstl") Build.options
       result
     = (Normal tt,
        [mkEmitFile "/proj/dist/tstl.lua" (code Build.user_bundle_file);
         mkEmitFile "/proj/dist/main.lua" (require_line "tstl" +:+ "print(1)")])
  /\ outputPath Build.user_bundle_file <> "/proj/dist/tstl.lua".
Proof. repeat split; try reflexivity. discriminate. Qed.

(** C10, amended: when generate_lualib_bundle is false,
    custom_lualib_bundle_name is set to a non-empty N without a dollar
    sign, outDir is given and at most one entry of the result list has
    its resolved outputPath directly in the resolved outDir with
    basename [lualib_bundle.lua], the removal runs first, so no
    remaining entry passes the rename test and none is renamed, yet
    every remaining file whose code begins with the fixed require line
    has it rewritten to require N. *)
Theorem rewrite_after_removal
    (path : PathModule) (config : Config) (options : CompilerOptions)
    (result : list EmitFile) (N : string) :
  generate_lualib_bundle config = false ->
  custom_lualib_bundle_name config = Some N ->
  N <> EmptyString ->
  no_dollar N = true ->
  JS.truthy (outDir options) = true ->
  (length (bundle_entries path (out_dir_of path options) result) <= 1)%nat ->
  exists kept result',
    removal_block path config options result = (Normal tt, kept)
    /\ rename_block path config options kept = (Normal tt, result')
    /\ beforeEmit path config options result = (Normal tt, result')
    /\ bundle_entries path (out_dir_of path options) kept = []
    /\ length result' = length kept
    /\ forall (i : nat) (file : EmitFile),
         kept !! i = Some file ->
         exists file',
           result' !! i = Some file'
           /\ outputPath file' = outputPath file
           /\ (forall rest,
                 code file = require_line lualib_bundle +:+ rest ->
                 code file' = require_line N +:+ rest).
Proof.
  intros Hg Hn Hne Hd Ho Hone.
  exists (removed path (out_dir_of path options) result).
  eexists.
  split; [by rewrite removal_block_runs_step|].
  split; [by apply rename_block_set|].
  assert (Hkept : Forall
            (fun f => is_lualib_bundle path (out_dir_of path options) f = false)
            (removed path (out_dir_of path options) result))
    by by apply removed_at_most_one.
  split.
  { rewrite (beforeEmit_set path config options N) by done.
    unfold after_removal. by rewrite Hg. }
  split; [by apply bundle_entries_nil|].
  split; [apply length_fmap|].
  intros i file Hi.
  eexists. split; [by rewrite list_lookup_fmap, Hi|].
  rewrite rewrite_entry_other by (eapply Forall_lookup_1 in Hkept; eauto).
  simpl. split; [done|].
  intros rest ->. by apply replace_matching.
Qed.

Lemma rewrite_after_removal_witness :
  exists kept result',
    removal_block Build.path (Build.drop_and_rename_to "tstl") Build.options
      [Build.bundle_file; Build.main_file] = (Normal tt, kept)
    /\ rename_block Build.path (Build.drop_and_rename_to "tstl") Build.options
         kept = (Normal tt, result')
    /\ beforeEmit Build.path (Build.drop_and_rename_to "tstl") Build.options
         [Build.bundle_file; Build.main_file] = (Normal tt, result')
    /\ bundle_entries Build.path (out_dir_of Build.path Build.options) kept = []
    /\ length result' = length kept
    /\ forall (i : nat) (file : EmitFile),
         kept !! i = Some file ->
         exists file',
           result' !! i = Some file'
           /\ outputPath file' = outputPath file
           /\ (forall rest,
                 code file = require_line lualib_bundle +:+ rest ->
                 code file' = require_line "tstl" +:+ rest).
Proof.
  apply (rewrite_after_removal Build.path (Build.drop_and_rename_to "tstl")
           Build.options [Build.bundle_file; Build.main_file] "tstl");
    [reflexivity|reflexivity|discriminate|reflexivity|reflexivity|].
  vm_compute. lia.
Defined.

(** ** Determinism *)

Section Agreement.

Context {A : Type}.

Lemma findIndex_from_ext (p q : A -> bool) (l : list A) (i : Z) :
  Forall (fun x => p x = q x) l ->
  JS.findIndex_from p l i = JS.findIndex_from q l i.
Proof.
  intros H; revert i.
  induction H as [|x l Hx _ IH]; intros i; simpl; [done|].
  by rewrite Hx, IH.
Qed.

Lemma Forall_splice (P : A -> Prop) (start count : Z) (l : list A) :
  Forall P l -> Forall P (JS.splice start count l).
Proof.
  intros H. unfold JS.splice.
  apply Forall_app; split; [by apply Forall_take|by apply Forall_drop].
Qed.

End Agreement.

Section TwoRuns.

(** Two runs: the same [dirname], [basename] and [join], and a
    [resolve] each, since [resolve] reads the working directory. *)
Context (resolve1 resolve2 : string -> string).
Context (dn bn : string -> string) (jn : string -> string -> string).

Local Abbreviation path1 := (mkPath resolve1 dn bn jn).
Local Abbreviation path2 := (mkPath resolve2 dn bn jn).
Local Abbreviation agree := (resolve_agree resolve1 resolve2).

Lemma is_lualib_bundle_agree (out_dir : string) (f : EmitFile) :
  agree f ->
  is_lualib_bundle path1 out_dir f = is_lualib_bundle path2 out_dir f.
Proof. unfold is_lualib_bundle, resolve_agree. simpl. by intros ->. Qed.

Lemma removed_agree (out_dir : string) (l : list EmitFile) :
  Forall agree l ->
  removed path1 out_dir l = removed path2 out_dir l.
Proof.
  intros H. unfold removed, JS.findIndex.
  rewrite (findIndex_from_ext _ (is_lualib_bundle path2 out_dir)); [done|].
  eapply Forall_impl; [exact H|]. apply is_lualib_bundle_agree.
Qed.

Lemma rewrite_agree (out_dir name : string) (l : list EmitFile) :
  Forall agree l ->
  rewrite_entry path1 out_dir name <$> l
  = rewrite_entry path2 out_dir name <$> l.
Proof.
  intros H. apply Forall_fmap_ext. eapply Forall_impl; [exact H|].
  intros f Hf. unfold rewrite_entry.
  by rewrite (is_lualib_bundle_agree out_dir f Hf).
Qed.

Lemma beforeEmit_agree (config : Config) (options : CompilerOptions)
    (result : list EmitFile) :
  out_dir_of path1 options = out_dir_of path2 options ->
  Forall agree result ->
  beforeEmit path1 config options result
  = beforeEmit path2 config options result.
Proof.
  intros Hd Hall. rewrite !beforeEmit_run.
  destruct (asserts_fail config options); [done|].
  f_equal.
  assert (Hrem : after_removal path1 config options result
                 = after_removal path2 config options result).
  { unfold after_removal. destruct (generate_lualib_bundle config); [done|].
    rewrite Hd. by apply removed_agree. }
  assert (Hkept : Forall agree
                    (after_removal path1 config options result)).
  { unfold after_removal. destruct (generate_lualib_bundle config); [done|].
    by apply Forall_splice. }
  rewrite <- Hrem. unfold after_rename.
  destruct (JS.truthy (custom_lualib_bundle_name config)); [|done].
  rewrite Hd. by apply rewrite_agree.
Qed.

End TwoRuns.

(** An absolute path resolves to the same path in every working
    directory. *)
Lemma posix_resolve_absolute (cwd1 cwd2 p : string) :
  Posix.starts_with_slash p = true ->
  Posix.resolve cwd1 p = Posix.resolve cwd2 p.
Proof. intros H. unfold Posix.resolve. by rewrite H. Qed.

(** C7, as stated, fails: [path.resolve] reads the working directory of
    the process, which is none of the inputs listed.  With a relative
    outDir, the same configuration, options and result list give one
    list when the process runs in [/proj] and another when it runs in
    [/other]: in the first run the bundle is found and removed, in the
    second it is not found and the last entry is removed instead. *)
Lemma beforeEmit_depends_on_cwd :
  let options := mkOptions (Some "dist") in
  let result := [Build.bundle_file; Build.main_file] in
  beforeEmit (Posix.path "/proj") Build.drop_bundle options result
    = (Normal tt, [Build.main_file])
  /\ beforeEmit (Posix.path "/other") Build.drop_bundle options result
     = (Normal tt, [Build.bundle_file])
  /\ beforeEmit (Posix.path "/proj") Build.drop_bundle options result
     <> beforeEmit (Posix.path "/other") Build.drop_bundle options result.
Proof. repeat split; try reflexivity. discriminate. Qed.

(** C7, amended: [beforeEmit] is deterministic once the resolution of
    paths is fixed.  Two runs on the same configuration, the same
    outDir option and the same input result list, in which
    [path.resolve] gives the same answer for outDir and for the
    outputPath of every entry (the same working directory, or absolute
    paths), end the same way and leave the same list; nothing else is
    read. *)
Theorem beforeEmit_deterministic
    (resolve1 resolve2 dn bn : string -> string)
    (jn : string -> string -> string)
    (config : Config) (options : CompilerOptions) (result : list EmitFile) :
  out_dir_of (mkPath resolve1 dn bn jn) options
    = out_dir_of (mkPath resolve2 dn bn jn) options ->
  Forall (resolve_agree resolve1 resolve2) result ->
  beforeEmit (mkPath resolve1 dn bn jn) config options result
  = beforeEmit (mkPath resolve2 dn bn jn) config options result.
Proof. apply beforeEmit_agree. Qed.

Lemma beforeEmit_deterministic_witness :
  beforeEmit (Posix.path "/proj") (Build.drop_and_rename_to "tstl")
    Build.options [Build.bundle_file; Build.main_file]
  = beforeEmit (Posix.path "/other") (Build.drop_and_rename_to "tstl")
      Build.options [Build.bundle_file; Build.main_file].
Proof.
  apply (beforeEmit_deterministic (Posix.resolve "/proj")
           (Posix.resolve "/other") Posix.dirname Posix.basename Posix.join
           (Build.drop_and_rename_to "tstl") Build.options
           [Build.bundle_file; Build.main_file]).
  - reflexivity.
  - repeat constructor.
Defined.

(** ** Further properties of the hook *)

Section SpliceFacts.

Context {A : Type}.

Lemma length_removelast_pred (l : list A) :
  length (removelast l) = Nat.pred (length l).
Proof.
  destruct l as [|x l _] using rev_ind; [done|].
  rewrite removelast_last, length_app. simpl. lia.
Qed.

(** What [splice] returns is what is left of the array, in order. *)
Lemma splice_sublist (start count : Z) (l : list A) :
  JS.splice start count l `sublist_of` l.
Proof.
  unfold JS.splice.
  set (len := Z.of_nat (length l)).
  set (a := if start <? 0 then Z.max (len + start) 0 else Z.min start len).
  set (d := Z.min (Z.max count 0) (len - a)).
  assert (Ha : 0 <= a <= len).
  { unfold a. destruct (start <? 0) eqn:Hs; [lia|].
    apply Z.ltb_ge in Hs. lia. }
  assert (Hd : 0 <= d) by (unfold d; lia).
  rewrite <- (take_drop (Z.to_nat a) l) at 3.
  apply sublist_app; [done|].
  replace (Z.to_nat (a + d)) with (Z.to_nat a + Z.to_nat d)%nat by lia.
  rewrite <- drop_drop. apply sublist_drop.
Qed.

End SpliceFacts.

Section HookFacts.

Context (path : PathModule) (config : Config) (options : CompilerOptions).

Lemma length_removed (out_dir : string) (l : list EmitFile) :
  length (removed path out_dir l) = Nat.pred (length l).
Proof.
  destruct (first_match_split (is_lualib_bundle path out_dir) l)
    as [Hnone|(l1 & e & l2 & -> & H1 & He)].
  - rewrite removed_none by done. apply length_removelast_pred.
  - rewrite removed_first by done. rewrite !length_app. simpl. lia.
Qed.

Lemma length_after_rename (l : list EmitFile) :
  length (after_rename path config options l) = length l.
Proof.
  unfold after_rename. destruct (JS.truthy _); [apply length_fmap|done].
Qed.

End HookFacts.

(** X1: with generate_lualib_bundle false and outDir given, the removal
    takes out the first entry that passes the test of the plugin, and
    only that one: the entries before it and after it stay, in their
    order, later entries passing the test included; the renaming then
    runs on exactly that list. *)
Theorem first_bundle_removed_in_place
    (path : PathModule) (config : Config) (options : CompilerOptions)
    (l1 l2 : list EmitFile) (e : EmitFile) :
  generate_lualib_bundle config = false ->
  JS.truthy (outDir options) = true ->
  bundle_entries path (out_dir_of path options) l1 = [] ->
  is_lualib_bundle path (out_dir_of path options) e = true ->
  removal_block path config options (l1 ++ e :: l2) = (Normal tt, l1 ++ l2)
  /\ beforeEmit path config options (l1 ++ e :: l2)
     = rename_block path config options (l1 ++ l2).
Proof.
  intros Hg Ho H1 He. apply bundle_entries_nil in H1.
  assert (Hrem : removal_block path config options (l1 ++ e :: l2)
                 = (Normal tt, l1 ++ l2)).
  { rewrite removal_block_runs_step by done.
    by rewrite removal_step_run, removed_first. }
  split; [done|].
  unfold beforeEmit, mbind, M_bind. by rewrite Hrem.
Qed.

Lemma first_bundle_removed_in_place_witness :
  removal_block Build.path (Build.drop_and_rename_to "tstl") Build.options
    ([Build.main_file] ++ Build.bundle_file
       :: [Build.util_file; Build.user_bundle_file])
  = (Normal tt, [Build.main_file] ++ [Build.util_file; Build.user_bundle_file])
  /\ beforeEmit Build.path (Build.drop_and_rename_to "tstl") Build.options
       ([Build.main_file] ++ Build.bundle_file
          :: [Build.util_file; Build.user_bundle_file])
     = rename_block Build.path (Build.drop_and_rename_to "tstl") Build.options
         ([Build.main_file] ++ [Build.util_file; Build.user_bundle_file]).
Proof.
  apply (first_bundle_removed_in_place Build.path
           (Build.drop_and_rename_to "tstl") Build.options
           [Build.main_file] [Build.util_file; Build.user_bundle_file]
           Build.bundle_file);
    reflexivity.
Defined.

(** X2: with generate_lualib_bundle false and outDir given, the hook
    returns and the list is shorter by exactly one entry, whether or
    not a bundle was in it; an empty list stays empty. *)
Theorem beforeEmit_drops_exactly_one
    (path : PathModule) (config : Config) (options : CompilerOptions)
    (result : list EmitFile) :
  generate_lualib_bundle config = false ->
  JS.truthy (outDir options) = true ->
  exists result',
    beforeEmit path config options result = (Normal tt, result')
    /\ length result' = Nat.pred (length result)
    /\ (result = [] -> result' = []).
Proof.
  intros Hg Ho. rewrite beforeEmit_run, asserts_pass by done.
  eexists. split; [reflexivity|].
  assert (Hlen : length (after_rename path config options
                           (after_removal path config options result))
                 = Nat.pred (length result)).
  { rewrite length_after_rename. unfold after_removal. rewrite Hg.
    apply length_removed. }
  split; [done|].
  intros ->. simpl in Hlen. by apply nil_length_inv.
Qed.

Lemma beforeEmit_drops_exactly_one_witness :
  exists result',
    beforeEmit Build.path Build.drop_bundle Build.options
      [Build.main_file; Build.util_file] = (Normal tt, result')
    /\ length result' = Nat.pred (length [Build.main_file; Build.util_file])
    /\ ([Build.main_file; Build.util_file] = [] -> result' = []).
Proof.
  apply (beforeEmit_drops_exactly_one Build.path Build.drop_bundle
           Build.options [Build.main_file; Build.util_file]);
    reflexivity.
Defined.

(** X3: without a custom name (absent or empty) the hook edits no
    entry and adds none: whatever the other settings, and whether it
    returns or throws, what it leaves is a sublist of the list it was
    given, the same objects in the same order. *)
Theorem beforeEmit_without_name_leaves_sublist
    (path : PathModule) (config : Config) (options : CompilerOptions)
    (result : list EmitFile) :
  JS.truthy (custom_lualib_bundle_name config) = false ->
  (beforeEmit path config options result).2 `sublist_of` result.
Proof.
  intros Hn. rewrite beforeEmit_run.
  destruct (asserts_fail config options); [done|]. simpl.
  unfold after_rename. rewrite Hn.
  unfold after_removal. destruct (generate_lualib_bundle config); [done|].
  apply splice_sublist.
Qed.

Lemma beforeEmit_without_name_leaves_sublist_witness :
  (beforeEmit Build.path (Build.drop_and_rename_to EmptyString) Build.options
     [Build.main_file; Build.bundle_file; Build.util_file]).2
  `sublist_of` [Build.main_file; Build.bundle_file; Build.util_file].
Proof.
  apply (beforeEmit_without_name_leaves_sublist Build.path
           (Build.drop_and_rename_to EmptyString) Build.options
           [Build.main_file; Build.bundle_file; Build.util_file]).
  reflexivity.
Defined.

(** X4: with generate_lualib_bundle true and no custom name (absent or
    empty) the hook does nothing: it returns, never throws, not even
    without outDir, and the list is as it was. *)
Theorem beforeEmit_inactive_is_identity
    (path : PathModule) (config : Config) (options : CompilerOptions)
    (result : list EmitFile) :
  generate_lualib_bundle config = true ->
  JS.truthy (custom_lualib_bundle_name config) = false ->
  beforeEmit path config options result = (Normal tt, result).
Proof.
  intros Hg Hn. rewrite beforeEmit_run.
  unfold asserts_fail, after_rename, after_removal.
  rewrite Hg, Hn. simpl. by rewrite andb_false_r.
Qed.

Lemma beforeEmit_inactive_is_identity_witness :
  beforeEmit Build.path (Build.rename_to EmptyString) (mkOptions None)
    [Build.bundle_file; Build.main_file]
  = (Normal tt, [Build.bundle_file; Build.main_file]).
Proof.
  apply (beforeEmit_inactive_is_identity Build.path
           (Build.rename_to EmptyString) (mkOptions None)
           [Build.bundle_file; Build.main_file]);
    reflexivity.
Defined.

Section SubstitutionFacts.

Lemma getSubstitution_other (matched before after : string)
    (c : ascii) (t : string) :
  c <> "$"%char ->
  JS.getSubstitution matched before after (String c t)
  = String c (JS.getSubstitution matched before after t).
Proof.
  intros Hne. destruct c as [[] [] [] [] [] [] [] []]; try reflexivity.
  by destruct Hne.
Qed.

(** A stretch of the replacement text without a dollar sign is copied. *)
Lemma getSubstitution_copy (matched before after s t : string) :
  no_dollar s = true ->
  JS.getSubstitution matched before after (s +:+ t)
  = s +:+ JS.getSubstitution matched before after t.
Proof.
  induction s as [|c s IH]; [done|].
  cbn [no_dollar]. intros [Hc Hs]%andb_true_iff.
  rewrite !append_cons, getSubstitution_other, IH; [done|done|].
  intros ->. by rewrite Ascii.eqb_refl in Hc.
Qed.

(** Two dollar signs in the replacement text give one. *)
Lemma getSubstitution_dollars (matched before after t : string) :
  JS.getSubstitution matched before after ("$$" +:+ t)
  = "$" +:+ JS.getSubstitution matched before after t.
Proof. reflexivity. Qed.

Lemma require_line_split (name : string) :
  require_line name
  = ("local ____lualib = require(" +:+ dquote)
      +:+ name +:+ (dquote +:+ ")" +:+ newline).
Proof. unfold require_line. by rewrite append_assoc. Qed.

(** The line written for a name with two dollar signs in it. *)
Lemma substituted_require_line (matched before after a b : string) :
  no_dollar a = true -> no_dollar b = true ->
  JS.getSubstitution matched before after (require_line (a +:+ "$$" +:+ b))
  = require_line (a +:+ "$" +:+ b).
Proof.
  intros Ha Hb. rewrite !require_line_split.
  rewrite !append_assoc.
  rewrite (getSubstitution_copy _ _ _ "local ____lualib = require(")
    by reflexivity.
  rewrite (getSubstitution_copy _ _ _ dquote) by reflexivity.
  rewrite (getSubstitution_copy _ _ _ a) by done.
  rewrite getSubstitution_dollars.
  rewrite getSubstitution_no_dollar; [done|].
  by rewrite no_dollar_append, Hb.
Qed.

(** Up to its first occurrence of a character, a string is determined
    by what it is a prefix of. *)
Lemma append_first_inj (c : ascii) (s1 s2 x y : string) :
  lacks c s1 = true -> lacks c s2 = true ->
  s1 +:+ String c x = s2 +:+ String c y -> s1 = s2.
Proof.
  revert s2. induction s1 as [|a s1 IH]; intros [|b s2] H1 H2 Heq.
  - done.
  - rewrite append_cons in Heq. injection Heq as -> _.
    cbn [lacks] in H2. by rewrite Ascii.eqb_refl in H2.
  - rewrite append_cons in Heq. injection Heq as -> _.
    cbn [lacks] in H1. by rewrite Ascii.eqb_refl in H1.
  - rewrite !append_cons in Heq. injection Heq as -> Heq.
    cbn [lacks] in H1, H2.
    apply andb_true_iff in H1 as [_ H1]. apply andb_true_iff in H2 as [_ H2].
    f_equal. by apply IH.
Qed.

(** A line written for a name without a double quote begins with the
    line of another such name only if the names are the same. *)
Lemma require_line_prefix_inj (n1 n2 r1 r2 : string) :
  lacks "034" n1 = true -> lacks "034" n2 = true ->
  require_line n1 +:+ r1 = require_line n2 +:+ r2 -> n1 = n2.
Proof.
  intros H1 H2 Heq. rewrite !require_line_split in Heq.
  rewrite !append_assoc in Heq.
  apply (inj (String.append _)) in Heq.
  apply (inj (String.append _)) in Heq.
  change (n1 +:+ String "034" (")" +:+ newline +:+ r1)
          = n2 +:+ String "034" (")" +:+ newline +:+ r2)) in Heq.
  by apply (append_first_inj "034" n1 n2) in Heq.
Qed.

(** Replacing twice is replacing once, for a name holding neither a
    dollar sign nor a double quote. *)
Lemma replace_anchored_twice (name s : string) :
  no_dollar name = true -> lacks "034" name = true ->
  JS.replace_anchored (require_line lualib_bundle) (require_line name)
    (JS.replace_anchored (require_line lualib_bundle) (require_line name) s)
  = JS.replace_anchored (require_line lualib_bundle) (require_line name) s.
Proof.
  intros Hd Hq.
  destruct (JS.strip_prefix (require_line lualib_bundle) s) as [rest|] eqn:Hs.
  - apply strip_prefix_Some in Hs as ->.
    rewrite replace_matching by done.
    destruct (JS.strip_prefix (require_line lualib_bundle)
                (require_line name +:+ rest)) as [r|] eqn:Hp.
    + apply strip_prefix_Some in Hp.
      assert (name = lualib_bundle) as ->
        by by apply require_line_prefix_inj in Hp.
      by apply replace_matching.
    + apply replace_not_matching. by apply strip_prefix_None.
  - assert (Hsame : JS.replace_anchored (require_line lualib_bundle)
                      (require_line name) s = s).
    { apply replace_not_matching. by apply strip_prefix_None. }
    by rewrite !Hsame.
Qed.

End SubstitutionFacts.

(** X5: a custom name with a doubled dollar sign, [a$$b], splits the
    build.  [String.prototype.replace] reads [$$] in its replacement
    text as one dollar sign, so every other file that begins with the
    require line is made to require [a$b], while the bundle is renamed
    with the name as configured, [a$$b.lua]: the module required is not
    the file written. *)
Theorem doubled_dollar_requires_other_module
    (path : PathModule) (config : Config) (options : CompilerOptions)
    (result : list EmitFile) (a b : string) (i : nat) (file : EmitFile) :
  custom_lualib_bundle_name config = Some (a +:+ "$$" +:+ b) ->
  no_dollar a = true ->
  no_dollar b = true ->
  JS.truthy (outDir options) = true ->
  result !! i = Some file ->
  exists result' file',
    rename_block path config options result = (Normal tt, result')
    /\ result' !! i = Some file'
    /\ (is_lualib_bundle path (out_dir_of path options) file = true ->
        outputPath file'
        = join path (out_dir_of path options) ((a +:+ "$$" +:+ b) +:+ ".lua"))
    /\ (is_lualib_bundle path (out_dir_of path options) file = false ->
        forall rest,
          code file = require_line lualib_bundle +:+ rest ->
          code file' = require_line (a +:+ "$" +:+ b) +:+ rest)
    /\ a +:+ "$" +:+ b <> a +:+ "$$" +:+ b.
Proof.
  intros Hn Ha Hb Ho Hi.
  assert (Hne : a +:+ "$$" +:+ b <> EmptyString) by by destruct a.
  rewrite (rename_block_set path config options (a +:+ "$$" +:+ b)) by done.
  eexists _, _. split; [reflexivity|].
  split; [by rewrite list_lookup_fmap, Hi|].
  split; [|split].
  - intros Hbundle. by rewrite rewrite_entry_bundle.
  - intros Hother rest Hcode. rewrite rewrite_entry_other by done. simpl.
    rewrite Hcode. unfold JS.replace_anchored.
    by rewrite strip_prefix_append, substituted_require_line.
  - intros Heq. apply (inj (String.append _)) in Heq.
    apply (f_equal String.length) in Heq.
    change (S (String.length b) = S (S (String.length b))) in Heq. lia.
Qed.

Lemma doubled_dollar_requires_other_module_witness :
  exists result' file',
    rename_block Build.path (Build.rename_to ("cc" +:+ "$$" +:+ "lib"))
      Build.options [Build.bundle_file; Build.main_file] = (Normal tt, result')
    /\ result' !! 1%nat = Some file'
    /\ (is_lualib_bundle Build.path (out_dir_of Build.path Build.options)
          Build.main_file = true ->
        outputPath file'
        = join Build.path (out_dir_of Build.path Build.options)
            (("cc" +:+ "$$" +:+ "lib") +:+ ".lua"))
    /\ (is_lualib_bundle Build.path (out_dir_of Build.path Build.options)
          Build.main_file = false ->
        forall rest,
          code Build.main_file = require_line lualib_bundle +:+ rest ->
          code file' = require_line ("cc" +:+ "$" +:+ "lib") +:+ rest)
    /\ "cc" +:+ "$" +:+ "lib" <> "cc" +:+ "$$" +:+ "lib".
Proof.
  apply (doubled_dollar_requires_other_module Build.path
           (Build.rename_to ("cc" +:+ "$$" +:+ "lib")) Build.options
           [Build.bundle_file; Build.main_file] "cc" "lib" 1 Build.main_file);
    reflexivity.
Defined.

Section NameFacts.

Lemma replace_same_line (s : string) :
  JS.replace_anchored (require_line lualib_bundle)
    (require_line lualib_bundle) s = s.
Proof.
  destruct (JS.strip_prefix (require_line lualib_bundle) s) as [rest|] eqn:Hs.
  - apply strip_prefix_Some in Hs as ->. by apply replace_matching.
  - apply replace_not_matching. by apply strip_prefix_None.
Qed.

End NameFacts.

(** X6: with the custom name [lualib_bundle] the rename block changes
    the code of no file, in any result list: the only thing it can do
    is to write the bundle's outputPath anew. *)
Theorem default_name_keeps_every_code
    (path : PathModule) (config : Config) (options : CompilerOptions)
    (result : list EmitFile) :
  custom_lualib_bundle_name config = Some lualib_bundle ->
  code <$> (rename_block path config options result).2 = code <$> result.
Proof.
  intros Hn. rewrite rename_block_run.
  destruct (JS.truthy (custom_lualib_bundle_name config)
            && negb (JS.truthy (outDir options))); [done|]. simpl.
  unfold after_rename, name_of. rewrite Hn. simpl.
  rewrite <- list_fmap_compose. apply list_fmap_ext.
  intros _ f _. simpl. unfold rewrite_entry.
  destruct (is_lualib_bundle path (out_dir_of path options) f); [done|].
  simpl. apply replace_same_line.
Qed.

Lemma default_name_keeps_every_code_witness :
  code <$> (rename_block Build.path (Build.rename_to lualib_bundle)
              Build.options
              [Build.bundle_file; Build.main_file; Build.two_requires_file]).2
  = code <$> [Build.bundle_file; Build.main_file; Build.two_requires_file].
Proof.
  apply (default_name_keeps_every_code Build.path
           (Build.rename_to lualib_bundle) Build.options
           [Build.bundle_file; Build.main_file; Build.two_requires_file]).
  reflexivity.
Defined.

(** X7: the hook adds no entry.  Whatever the configuration and the
    options, and whether it returns or throws, the list it leaves is no
    longer than the one it was given, and every entry in it stems from
    an entry of the input: from a bundle entry with the same code, or
    from another entry with the same outputPath. *)
Theorem beforeEmit_adds_no_entry
    (path : PathModule) (config : Config) (options : CompilerOptions)
    (result : list EmitFile) :
  (length (beforeEmit path config options result).2 <= length result)%nat
  /\ Forall
       (fun file' =>
          exists file,
            file ∈ result
            /\ (is_lualib_bundle path (out_dir_of path options) file = true
                /\ code file' = code file
                \/ is_lualib_bundle path (out_dir_of path options) file = false
                   /\ outputPath file' = outputPath file))
       (beforeEmit path config options result).2.
Proof.
  assert (Hself : forall file : EmitFile,
             is_lualib_bundle path (out_dir_of path options) file = true
             /\ code file = code file
             \/ is_lualib_bundle path (out_dir_of path options) file = false
                /\ outputPath file = outputPath file).
  { intros file. destruct (is_lualib_bundle _ _ file); auto. }
  rewrite beforeEmit_run.
  destruct (asserts_fail config options); simpl.
  { split; [done|]. apply Forall_forall. intros file Hin. eauto. }
  assert (Hsub : after_removal path config options result `sublist_of` result).
  { unfold after_removal. destruct (generate_lualib_bundle config); [done|].
    apply splice_sublist. }
  split.
  { rewrite length_after_rename. by apply sublist_length. }
  unfold after_rename.
  destruct (JS.truthy (custom_lualib_bundle_name config)).
  - apply Forall_fmap, Forall_forall. intros file Hin. simpl.
    exists file. split; [by eapply elem_of_sublist|].
    unfold rewrite_entry.
    destruct (is_lualib_bundle path (out_dir_of path options) file); auto.
  - apply Forall_forall. intros file Hin.
    exists file. split; [by eapply elem_of_sublist|done].
Qed.

(** X8: rewriting is idempotent on the ordinary files.  For a custom
    name N that is not empty and holds neither a dollar sign nor a
    double quote, and with outDir given, running the rename block on
    its own output leaves every entry that was not a bundle entry as
    the first run left it. *)
Theorem rewriting_twice_changes_nothing_more
    (path : PathModule) (config : Config) (options : CompilerOptions)
    (result : list EmitFile) (N : string) :
  custom_lualib_bundle_name config = Some N ->
  N <> EmptyString ->
  no_dollar N = true ->
  lacks "034" N = true ->
  JS.truthy (outDir options) = true ->
  exists once twice,
    rename_block path config options result = (Normal tt, once)
    /\ rename_block path config options once = (Normal tt, twice)
    /\ forall (i : nat) (file : EmitFile),
         result !! i = Some file ->
         is_lualib_bundle path (out_dir_of path options) file = false ->
         twice !! i = once !! i.
Proof.
  intros Hn Hne Hd Hq Ho.
  eexists _, _.
  split; [by apply rename_block_set|].
  split; [by apply rename_block_set|].
  intros i file Hi Hother.
  rewrite !list_lookup_fmap, Hi. simpl. f_equal.
  rewrite (rewrite_entry_other path _ _ (rewrite_entry _ _ _ file))
    by by apply rewrite_entry_other_stays.
  rewrite rewrite_entry_other by done. simpl.
  by rewrite replace_anchored_twice.
Qed.

Lemma rewriting_twice_changes_nothing_more_witness :
  exists once twice,
    rename_block Build.path (Build.rename_to "tstl") Build.options
      [Build.main_file; Build.util_file] = (Normal tt, once)
    /\ rename_block Build.path (Build.rename_to "tstl") Build.options once
       = (Normal tt, twice)
    /\ forall (i : nat) (file : EmitFile),
         [Build.main_file; Build.util_file] !! i = Some file ->
         is_lualib_bundle Build.path (out_dir_of Build.path Build.options) file
         = false ->
         twice !! i = once !! i.
Proof.
  apply (rewriting_twice_changes_nothing_more Build.path
           (Build.rename_to "tstl") Build.options
           [Build.main_file; Build.util_file] "tstl");
    [reflexivity|discriminate|reflexivity|reflexivity|reflexivity].
Defined.
